(** * The prompt synthesis module [questions.py]

    The module holds a question corpus read once from [all_questions.json], a
    literal registry of target files, and three composers that splice one
    caller-supplied string into a fixed template (Python f-strings).

    Python [str] values are modelled by [string], holding the UTF-8 encoding
    of the text (the module's source file is UTF-8). *)

From Stdlib Require Import String Ascii List Bool Arith ZArith Lia.
Import ListNotations.
Local Open Scope list_scope.
Local Open Scope string_scope.

(** ** Python values and exceptions *)

(** The values [json.load] can hand back: [None], [bool], [int], [float]
    (kept as its literal text), [str], [list] and [dict] (in document order). *)
#[warnings="-register-all"]
Inductive value : Type :=
| VNone
| VBool (b : bool)
| VInt (n : Z)
| VFloat (literal : string)
| VStr (s : string)
| VList (items : list value)
| VDict (entries : list (string * value)).

Inductive exn : Type :=
| FileNotFoundError
| PermissionError
| UnicodeDecodeError
| JSONDecodeError
| OtherError (name : string).

Inductive outcome (A : Type) : Type :=
| Return (a : A)
| Raise (e : exn).
Arguments Return {A} a.
Arguments Raise {A} e.

(** ** The interpreter state

    What a call can observe besides its arguments: the files of the working
    directory, the number of file objects currently open, and the module's
    global names. *)

Inductive file_status : Type :=
| Absent                      (* [open] raises FileNotFoundError *)
| Unreadable                  (* [open] raises PermissionError *)
| Undecodable                 (* [open] succeeds, [read] raises UnicodeDecodeError *)
| Text (content : string).    (* [open] succeeds, [read] returns [content] *)

(** The module's global names; [None] for a name not bound yet. *)
Record globals : Type := {
  g_BASE_URL : option string;
  g_questions : option value;
  g_questions_generator : option (list string)
}.

Record world : Type := {
  files : string -> file_status;
  open_files : nat;
  module_globals : globals
}.

(** State and exception monad: a raised exception keeps the state reached. *)
Definition M (A : Type) : Type := world -> outcome A * world.

Definition ret {A} (a : A) : M A := fun w => (Return a, w).
Definition raise {A} (e : exn) : M A := fun w => (Raise e, w).
Definition bind {A B} (c : M A) (k : A -> M B) : M B :=
  fun w => match c w with
           | (Return a, w') => k a w'
           | (Raise e, w') => (Raise e, w')
           end.

Declare Scope py_scope.
Delimit Scope py_scope with py.
Notation "x <- c ;; k" := (bind c (fun x => k))
  (at level 61, c at next level, right associativity) : py_scope.
Notation "c ;; k" := (bind c (fun _ => k))
  (at level 61, right associativity) : py_scope.
Local Open Scope py_scope.

(** [try: body / except: handler] with a bare [except], which catches every
    exception. *)
Definition try_except {A} (body handler : M A) : M A :=
  fun w => match body w with
           | (Return a, w') => (Return a, w')
           | (Raise _, w') => handler w'
           end.

(** A file object opened for reading in text mode. *)
Record file : Type := { file_name : string }.

(** [open(name, "r")] *)
Definition open (name : string) : M file :=
  fun w => match files w name with
           | Absent => (Raise FileNotFoundError, w)
           | Unreadable => (Raise PermissionError, w)
           | Undecodable | Text _ =>
               (Return {| file_name := name |},
                {| files := files w; open_files := S (open_files w);
                   module_globals := module_globals w |})
           end.

(** [f.close()], as run by the [with] statement when its block is left. *)
Definition close (f : file) : M unit :=
  fun w => (Return tt,
            {| files := files w; open_files := pred (open_files w);
               module_globals := module_globals w |}).

(** [f.read()] *)
Definition read (f : file) : M string :=
  fun w => match files w (file_name f) with
           | Text content => (Return content, w)
           | Undecodable => (Raise UnicodeDecodeError, w)
           | Absent | Unreadable => (Raise (OtherError "OSError"), w)
           end.

(** [with open(name, "r") as f: body]: the file is closed however the block
    is left, and an exception of the block is raised again after that. *)
Definition with_open {A} (name : string) (body : file -> M A) : M A :=
  f <- open name ;;
  fun w => match body f w with
           | (r, w') => (r, snd (close f w'))
           end.

(** ** The question corpus loader *)

Section Loader.

(** [json.loads] of the standard library: parses a text or raises. *)
Variable json_loads : string -> outcome value.

(** [json.load(f)] is [json.loads(f.read())]. *)
Definition json_load (f : file) : M value :=
  text <- read f ;;
  fun w => (json_loads text, w).

Definition get_questions : M value :=
  try_except
    (with_open "all_questions.json" (fun f => json_load f))
    (ret (VList [])).

End Loader.

(** ** Module globals *)

Definition BASE_URL : string := "https://deepwiki.com/code-423n4/2025-12-rujira".

Definition questions_generator : list string := [
    "contracts/rujira-account/src/lib.rs";
    "contracts/rujira-account/src/contract.rs";
    "contracts/rujira-account/src/execute.rs";
    "contracts/rujira-account/src/error.rs";
    "contracts/rujira-account/src/state.rs";
    "contracts/rujira-ghost-credit/src/lib.rs";
    "contracts/rujira-ghost-credit/src/account.rs";
    "contracts/rujira-ghost-credit/src/config.rs";
    "contracts/rujira-ghost-credit/src/contract.rs";
    "contracts/rujira-ghost-credit/src/error.rs";
    "contracts/rujira-ghost-credit/src/events.rs";
    "contracts/rujira-ghost-credit/src/state.rs";
    "contracts/rujira-ghost-vault/src/lib.rs";
    "contracts/rujira-ghost-vault/src/borrowers.rs";
    "contracts/rujira-ghost-vault/src/config.rs";
    "contracts/rujira-ghost-vault/src/contract.rs";
    "contracts/rujira-ghost-vault/src/error.rs";
    "contracts/rujira-ghost-vault/src/events.rs";
    "contracts/rujira-ghost-vault/src/state.rs"
  ].

(** ** The templates

    The text between the placeholders of the three f-strings, as it stands in
    the source, trailing blanks included.  [dquote] stands for the double
    quote character. *)

Definition dquote : string := String (ascii_of_nat 34) EmptyString.

(** [question_format], template text of source lines 50-58. *)
Definition audit_head : string :=
  "  
You are an **Elite DeFi Security Auditor** specializing in   
overcollateralized lending protocols, cross-chain asset management, oracle   
manipulation resistance, and liquidation mechanisms. Your task is to analyze   
the **Rujira Protocol** codebase—a CosmWasm-based lending and borrowing system   
built on THORChain featuring secured assets, multi-collateral credit accounts,   
and permissionless liquidations—through the lens of this single security question:   
  
**Security Question (scope for this run):** ".

(** [question_format], template text of source lines 58-343. *)
Definition audit_tail : string :=
  "  
  
**RUJIRA PROTOCOL CONTEXT:**  
  
**Architecture**: Rujira enables overcollateralized borrowing of THORChain secured   
assets through a three-contract system. Users deposit collateral into credit accounts   
(`rujira-account`), borrow from lending vaults (`rujira-ghost-vault`), and all operations   
are orchestrated by a registry contract (`rujira-ghost-credit`). The protocol maintains   
solvency through dynamic LTV calculations, collateral ratio haircuts, and   
permissionless liquidation mechanisms.  
  
Think in invariant   
Check every logic entry that could affect the protocol base on the question provided   
Look at the exact file provided and other places also if it can cause a severe vuln   
Think in an elite way becasue there is always a logic vuln that could occur   
  
**Key Components**:   
  
* **Credit Registry**: `rujira-ghost-credit/src/contract.rs` (main orchestrator   
  with account creation, LTV enforcement, liquidation triggers),   
  `rujira-ghost-credit/src/account.rs` (account validation and LTV calculations),   
  `rujira-ghost-credit/src/config.rs` (protocol parameters and validation)  
  
* **Lending Vaults**: `rujira-ghost-vault/src/contract.rs` (vault operations,   
  interest distribution), `rujira-ghost-vault/src/state.rs` (share accounting,   
  interest accrual), `rujira-ghost-vault/src/borrowers.rs` (borrower limits   
  and authorization)  
  
* **Individual Accounts**: `rujira-account/src/contract.rs` (sudo-only access   
  pattern, isolated accounting), `rujira-account/src/execute.rs` (message   
  forwarding and execution)  
  
**Files in Scope**: All contracts in `contracts/rujira-account/src/`,   
`contracts/rujira-ghost-credit/src/`, and `contracts/rujira-ghost-vault/src/`   
directories. Test files are **out of scope** for vulnerability analysis   
but may be referenced for understanding expected behavior.  
  
**CRITICAL INVARIANTS (derived from protocol specification and code):**  
  
1. **Owner-Gated Accounts**: Only `account.owner` can initiate operations via   
   `ExecuteMsg::Account`. This ensures debt creation and collateral movements   
   are bound to the NFT-like ownership model.  
  
2. **Post-Adjustment LTV Check**: After any owner operation, `adjusted_ltv` must   
   be `< adjustment_threshold`. If exceeded, the transaction fails to prevent   
   unsafe account states.  
  
3. **Safe Liquidation Outcomes**: Liquidations only trigger when   
   `adjusted_ltv >= liquidation_threshold` and must stop before over-selling   
   collateral, respecting user preferences and max slip limits.  
  
4. **Whitelisted Vault Access**: Registry only routes to vaults listed in   
   `collateral_ratios`, preventing rogue contracts from being used as debt sources.  
  
5. **Bounded Config Values**: All configuration changes validated via   
   `Config::validate`, enforcing fee caps, ratio constraints, and threshold ordering.  
  
6. **Fee-First Liquidation Repay**: Protocol and liquidator fees extracted before   
   debt repayment, ensuring fees are never minted without real debt repayment.  
  
7. **Admin-Only Accounts**: `rujira-account` instances only accept `sudo` calls   
   from registry, maintaining strict access control over account operations.  
  
8. **Governance-Whitelisted Borrowers**: Only pre-approved contracts via   
   `SudoMsg::SetBorrower` can borrow from vaults, preventing unauthorized debt creation.  
  
9. **Borrow Limit Enforcement**: Each borrower has a maximum USD value they can   
   borrow, preventing systemic over-leverage.  
  
10. **Always-Accrued Interest**: `distribute_interest()` called before all operations,   
    ensuring accurate accounting and preventing stale data manipulation.  
  
**YOUR INVESTIGATION MISSION:**  
  
Accept the premise of the security question and explore **all** relevant   
code paths, data structures, state transitions, and cross-contract   
interactions related to it. Do not settle for surface observations—trace   
execution flows through account creation → collateral deposit → borrowing   
→ LTV validation → liquidation flows.  
  
Your goal is to find **one** concrete, exploitable vulnerability tied to   
the question that an attacker, liquidator, or malicious user could exploit.   
Focus on:   
  
* Business-logic flaws (incorrect validation, missing checks)  
* Mathematical errors (overflow, underflow, precision loss in LTV calculations)  
* Race conditions (concurrent account operations, share accounting)  
* Oracle manipulation (THORChain oracle price feeds)  
* Collateral calculation bugs (collateral ratios, LTV computations)  
* Liquidation vulnerabilities (premature liquidation, fee extraction)  
* Interest accrual manipulation (distribution calculations, rate determination)  
* Access control bypasses (sudo pattern violations, owner validation)  
* Cross-contract interaction bugs (registry-vault-account communication)  
* Asset accounting errors (share price manipulation, supply inconsistencies)  
  
**ATTACK SURFACE EXPLORATION:**  
  
1. **Account Operations** (`rujira-ghost-credit/src/contract.rs`, `rujira-ghost-credit/src/account.rs`):  
   - Owner validation bypasses in `ExecuteMsg::Account`  
   - LTV calculation errors during collateral/borrow operations  
   - Race conditions between account state updates and LTV checks  
   - Collateral ratio manipulation through asset valuation bugs  
   - Account transfer vulnerabilities affecting ownership model  
  
2. **Liquidation Mechanism** (`rujira-ghost-credit/src/contract.rs`):  
   - Premature liquidation through oracle manipulation  
   - Liquidation fee extraction exceeding protocol limits  
   - Partial liquidation leaving residual debt positions  
   - Liquidatee preference order manipulation  
   - Max slip limit bypasses enabling over-collateralization  
  
3. **Vault Operations** (`rujira-ghost-vault/src/contract.rs`, `rujira-ghost-vault/src/state.rs`):  
   - Share price manipulation through accounting errors  
   - Interest distribution bugs enabling unlimited minting  
   - Borrower limit bypasses through delegate borrowing  
   - Deposit/withdrawal accounting inconsistencies  
   - Protocol fee calculation errors  
  
4. **Access Control** (`rujira-account/src/contract.rs`, `rujira-ghost-vault/src/borrowers.rs`):  
   - Sudo pattern violations enabling unauthorized account control  
   - Borrower whitelist bypasses allowing unauthorized debt creation  
   - Admin privilege escalation through configuration manipulation  
   - Cross-contract authorization failures  
  
5. **Oracle Integration** (THORChain oracle usage):  
   - Price manipulation through oracle feed attacks  
   - Stale oracle data exploitation in LTV calculations  
   - Cross-chain price inconsistencies enabling arbitrage  
   - Oracle failure handling during liquidations  
  
6. **Mathematical Operations** (LTV, interest, share calculations):  
   - Precision loss in collateral-to-debt conversions  
   - Overflow/underflow in share supply calculations  
   - Rounding errors in interest distribution  
   - Collateral ratio computation bugs  
  
**RUJIRA-SPECIFIC ATTACK VECTORS:**  
  
- **LTV Calculation Manipulation**: Can attackers manipulate collateral valuations   
  or debt calculations to bypass `adjustment_threshold` and create undercollateralized positions?  
- **Liquidation Race Conditions**: Can timing attacks between oracle updates and   
  liquidation triggers enable profitable liquidations at manipulated prices?  
- **Share Price Exploitation**: Can attackers manipulate share price calculations   
  in vaults to drain assets or extract protocol fees?  
- **Access Control Bypass**: Can attackers circumvent the sudo pattern or owner   
  validation to gain unauthorized control over credit accounts?  
- **Interest Accrual Bugs**: Can interest calculation errors enable unlimited   
  asset minting or interest avoidance through timing attacks?  
- **Cross-Contract State Inconsistencies**: Can state synchronization issues between   
  registry, vaults, and accounts create exploitable arbitrage opportunities?  
- **Collateral Ratio Haircut Bypass**: Can attackers exploit collateral ratio   
  calculations to over-value volatile assets and increase borrowing capacity?  
- **Liquidation Fee Extraction**: Can liquidators extract fees exceeding protocol   
  limits through calculation errors or state manipulation?  
- **Oracle Manipulation**: Can THORChain oracle manipulation enable profitable   
  liquidations or borrowing attacks?  
- **Account Ownership Transfer Bugs**: Can account transfer mechanisms be exploited   
  to bypass ownership controls or facilitate collateral theft?  
  
**TRUST MODEL:**  
  
**Trusted Roles**: THORChain oracle providers, Rujira Deployer Multisig, THORChain   
node operators. Do **not** assume these actors behave maliciously unless the   
question explicitly explores compromised oracle or governance scenarios.  
  
**Untrusted Actors**: Any user creating accounts, borrowing funds, liquidating   
positions, or attempting price manipulation. Focus your analysis on bugs   
exploitable by untrusted actors without requiring oracle compromise or   
governance collusion.  
  
**KNOWN ISSUES / EXCLUSIONS:**  
  
- Cryptographic primitives (CosmWasm crypto functions) are assumed secure  
- THORChain network security (assumed resistant to 51% attacks)  
- Oracle data accuracy (oracles are trusted to provide correct data)  
- Network-level attacks (DDoS, BGP hijacking, DNS poisoning)  
- CosmWasm runtime bugs unrelated to Rujira code  
- Social engineering, phishing, or key theft  
- Gas optimization, code style, missing comments  
- Precision loss <0.01% in fee calculations  
- Test file issues (tests are out of scope)  
- Market risk (price movements) unless caused by protocol bugs  
- MEV or front-running attacks unless enabled by protocol vulnerabilities  
  
**VALID IMPACT CATEGORIES (Code4rena Bug Bounty):**  
  
**Critical Severity**:  
- Direct loss of funds (theft of user collateral or protocol assets)  
- Permanent freezing of funds (fix requires protocol redeployment)  
- Protocol insolvency leading to systemic loss  
  
**High Severity**:  
- Temporary freezing of funds with economic loss  
- Systemic undercollateralization risks  
- Widespread liquidations due to protocol bugs  
  
**Medium Severity**:  
- Economic manipulation benefiting attackers  
- State inconsistencies requiring manual intervention  
- Interest or fee calculation errors  
- DoS vulnerabilities affecting core functionality  
  
**Low/QA (out of scope)**:  
- Minor precision loss (<0.01%)  
- Gas inefficiencies  
- Event emission or logging issues  
- Non-critical edge cases with no financial impact  
  
**OUTPUT REQUIREMENTS:**  
  
If you discover a valid vulnerability related to the security question,   
produce a **full report** following the format below. Your report must include:   
- Exact file paths and function names  
- Code quotations (actual snippets from the in-scope contracts)  
- Step-by-step exploitation path with realistic parameters  
- Clear explanation of which invariant is broken  
- Impact quantification (fund loss amount, collateral affected)  
- Likelihood assessment (attacker profile, preconditions, complexity)  
- Concrete recommendation with code fix  
- Proof of Concept (Rust test demonstrating the exploit)  
  
If **no** valid vulnerability emerges after thorough investigation, state exactly:   
`#NoVulnerability found for this question.`  
  
**Do not fabricate or exaggerate issues.** Only concrete, exploitable bugs with   
clear attack paths and realistic impact count.  
  
**Do not** report:   
- Known issues from previous Halborn audits  
- Out-of-scope problems (test files, CosmWasm bugs, crypto primitive breaks)  
- Theoretical vulnerabilities without clear attack path and PoC  
- Issues requiring trusted roles to behave maliciously  
- Minor optimizations, style issues, or low-severity findings  
  
**Focus on one high-quality finding** rather than multiple weak claims.  
  
**VALIDATION CHECKLIST (Before Reporting):**  
- [ ] Vulnerability lies within one of the in-scope contracts (not test/)  
- [ ] Exploitable by unprivileged attacker (no oracle/governance collusion required)  
- [ ] Attack path is realistic with correct data types and feasible parameters  
- [ ] Impact meets Critical, High, or Medium severity per Code4rena scope  
- [ ] PoC can be implemented as Rust test or transaction sequence  
- [ ] Issue breaks at least one documented invariant  
- [ ] Not a known exclusion from Halborn audits  
- [ ] Clear financial harm, collateral loss, or state divergence demonstrated  
  
---  
  
**AUDIT REPORT FORMAT** (if vulnerability found):  
  
Audit Report  
  
## Title   
The Title Of the Report   
  
## Summary  
A short summary of the issue, keep it brief.  
  
## Finding Description  
A more detailed explanation of the issue. Poorly written or incorrect findings may result in rejection and a decrease of reputation score.  
  
Describe which security guarantees it breaks and how it breaks them. If this bug does not automatically happen, showcase how a malicious input would propagate through the system to the part of the code where the issue occurs.  
  
## Impact Explanation  
Elaborate on why you've chosen a particular impact assessment.  
  
## Likelihood Explanation  
Explain how likely this is to occur and why.  
  
## Recommendation  
How can the issue be fixed or solved. Preferably, you can also add a snippet of the fixed code here.  
  
## Proof of Concept  
A proof of concept is normally required for Critical, High and Medium Submissions for reviewers under 80 reputation points. Please check the competition page for more details, otherwise your submission may be rejected by the judges.  
Very important the test function using their test must be provided in here and pls it must be able to compile and run successfully  
  
**Remember**: False positives harm credibility more than missed findings.  Assume claims are invalid until overwhelming evidence proves otherwise.  
  
**Now perform STRICT validation of the claim above.**  
  
**Output ONLY:**  
- A full audit report (if genuinely valid after passing **all** checks above) following the specified format  
- `#NoVulnerability found for this question.` (if **any** check fails)  
  
**Be ruthlessly skeptical.  The bar for validity is EXTREMELY valid.**  
".

(** [validation_format], template text of source lines 357-363. *)
Definition validation_head : string :=
  "
You are an **Elite DeFi Security Judge** with deep expertise in overcollateralized lending protocols, CosmWasm smart contracts, THORChain integration, and Code4rena bug bounty validation. Your ONLY task is **ruthless technical validation** of security claims against the Rujira codebase.

Note: THORChain oracle providers and Rujira Deployer Multisig are trusted roles.

**SECURITY CLAIM TO VALIDATE:**
".

(** [validation_format], template text of source lines 363-691. *)
Definition validation_tail : string :=
  ("

================================================================================
## **RUJIRA PROTOCOL VALIDATION FRAMEWORK**

### **PHASE 1: IMMEDIATE DISQUALIFICATION CHECKS**
Reject immediately (`#NoVulnerability`) if **ANY** apply:

#### **A. Scope Violations**
- ❌ Affects files **not** in the three in-scope contract directories
- ❌ Targets any file under test directories (`*.test.*`, `tests/`) - tests are out of scope
- ❌ Claims about documentation, comments, code style, or logging (not security issues)
- ❌ Focuses on out-of-scope components: rujira-bow, rujira-fin, rujira-thorchain-swap, rujira-mint, rujira-pilot, rujira-staking, rujira-revenue

**In-Scope Files (3 contracts):**
- **rujira-account**: `contracts/rujira-account/src/**/*.rs` (sudo pattern, isolated accounting)
- **rujira-ghost-credit**: `contracts/rujira-ghost-credit/src/**/*.rs` (registry, LTV enforcement, liquidations)
- **rujira-ghost-vault**: `contracts/rujira-ghost-vault/src/**/*.rs` (lending vaults, interest distribution)

**Verify**: Check that every file path cited in the report matches exactly one of the in-scope contracts.

#### **B. Threat Model Violations**
- ❌ Requires THORChain oracle manipulation or compromise (oracles are trusted)
- ❌ Assumes compromised Rujira Deployer Multisig (multisig is trusted role)
- ❌ Needs THORChain node operators to act maliciously (node operators are trusted)
- ❌ Requires attacker to compromise CosmWasm runtime or blockchain consensus
- ❌ Assumes cryptographic primitives (CosmWasm crypto functions) are broken
- ❌ Depends on network-level attacks: DDoS, BGP hijacking, DNS poisoning
- ❌ Relies on social engineering, phishing, key theft, or user operational security failures

**Trusted Roles**: THORChain oracle providers provide price feeds; Rujira Deployer Multisig controls protocol parameters; THORChain node operators can pause contracts. Do **not** assume these actors behave maliciously.

**Untrusted Actors**: Any user creating accounts, borrowing funds, liquidating positions, or attempting manipulation.

#### **C. Known Issues / Accepted Risks** (from Halborn audits)
- ❌ Any finding already mentioned in Halborn audit reports
- ❌ Liquidations requiring off-chain triggering (by design, permissionless)
- ❌ Market risk from normal price movements (not protocol bugs)
- ❌ THORChain network-level issues or secured asset risks
- ❌ Precision loss <0.01% in calculations
- ❌ Gas/fee optimization issues without security impact

#### **D. Non-Security Issues**
- ❌ Gas optimizations, performance improvements, or micro-optimizations
- ❌ Code style, naming conventions, or refactoring suggestions
- ❌ Missing events, logs, error messages, or better user experience
- ❌ Documentation improvements, README updates, or comment additions
- ❌ " ++ dquote ++ "Best practices" ++ dquote ++ " recommendations with no concrete exploit scenario
- ❌ Input validation preventing honest user mistakes unless it enables theft
- ❌ Minor precision errors with negligible financial impact (<0.01%)

#### **E. Invalid Exploit Scenarios**
- ❌ Requires impossible inputs: negative amounts, invalid addresses, unrealistic prices
- ❌ Cannot be triggered through any realistic ExecuteMsg or SudoMsg call
- ❌ Depends on calling internal functions not exposed through any public API
- ❌ Relies on race conditions prevented by atomic operations or state checks
- ❌ Needs multiple coordinated transactions with no economic incentive
- ❌ Requires attacker to already possess the collateral they seek to steal
- ❌ Depends on block timestamp manipulation beyond reasonable bounds

### **PHASE 2: RUJIRA-SPECIFIC DEEP CODE VALIDATION**

#### **Step 1: TRACE COMPLETE EXECUTION PATH THROUGH LENDING ARCHITECTURE**

**Rujira Flow Patterns:**

1. **Account Creation Flow**:
   User calls `rujira-ghost-credit::ExecuteMsg::CreateAccount` → creates new `rujira-account` instance → registry set as admin → sudo-only access established

2. **Collateral Deposit Flow**:
   User sends tokens to account → calls `ExecuteMsg::Account(AccountMsg::Deposit)` → registry validates ownership → sudo call to account → tokens held in isolated accounting

3. **Borrowing Flow**:
   User calls `ExecuteMsg::Account(AccountMsg::Borrow)` → registry validates ownership & LTV → sudo call to account → account calls `BorrowerMsg::Borrow` on vault → vault checks borrower whitelist & limits → tokens transferred to account

4. **Liquidation Flow**:
   Liquidator calls `ExecuteMsg::Liquidate` → registry checks `adjusted_ltv >= liquidation_threshold` → calculates fees & repayment → sudo calls to close positions → liquidator receives bonus

For each claim, reconstruct the entire execution path:

1. **Identify Entry Point**: Which user-facing function is called? (`ExecuteMsg::Account`, `ExecuteMsg::Liquidate`, etc.)
2. **Follow Internal Calls**: Trace through all function calls, including:
   - Ownership validation in `rujira-ghost-credit`
   - LTV calculations in `account.rs`
   - Sudo forwarding to `rujira-account`
   - Vault operations in `rujira-ghost-vault`
3. **State Before Exploit**: Document initial state (collateral balances, debt, LTV ratios)
4. **State Transitions**: Enumerate all changes (collateral movements, debt updates, share minting/burning)
5. **Check Protections**: Verify if ownership checks, LTV validation, or mathematical constraints prevent the exploit
6. **Final State**: Show how the exploit results in unauthorized state (collateral loss, undercollateralization, share manipulation)

#### **Step 2: VALIDATE EVERY CLAIM WITH CODE EVIDENCE**

For **each assertion** in the report, demand:

**✅ Required Evidence:**
- Exact file path and line numbers (e.g., `rujira-ghost-credit/src/account.rs:152-191`) within in-scope contracts
- Direct Rust code quotes showing the vulnerable logic
- Call traces with actual parameter values demonstrating how execution reaches the vulnerable line
- Calculations showing how collateral, debt, or LTV ratios change incorrectly
- References to specific invariant violations

**🚩 RED FLAGS (indicate INVALID):**

1. **" ++ dquote ++ "Missing Validation" ++ dquote ++ " Claims**:
   - ❌ Invalid unless report shows input bypasses *all* validation layers:
     - `ExecuteMsg::Account` ownership checks in `rujira-ghost-credit`
     - LTV validation in `account.rs`
     - Vault borrower whitelist checks
     - Sudo pattern restrictions in `rujira-account`
   - ✅ Valid if a specific input type genuinely has no validation path

2. **" ++ dquote ++ "LTV Calculation" ++ dquote ++ " Claims**:
   - ❌ Invalid unless report demonstrates:
     - `adjusted_ltv` calculation produces incorrect values
     - Attacker can bypass `adjustment_threshold` or `liquidation_threshold`
     - Specific mathematical error in collateral ratio computation
   - ✅ Valid if LTV calculations can be manipulated for undercollateralization

3. **" ++ dquote ++ "Share Price Manipulation" ++ dquote ++ " Claims**:
   - ❌ Invalid unless report demonstrates:
     - `totalAssets()` or `totalSupply()` can be manipulated in vault
     - Share price decreases unexpectedly allowing asset drainage
     - Attacker can extract value through share accounting errors
   - ✅ Valid if share accounting enables fund extraction

4. **" ++ dquote ++ "Access Control Bypass" ++ dquote ++ " Claims**:
   - ❌ Invalid unless report demonstrates:
     - Sudo pattern can be circumvented in `rujira-account`
     - Ownership validation can be bypassed in `rujira-ghost-credit`
     - Borrower whitelist can be bypassed in vault
   - ✅ Valid if access controls can be circumvented

5. **" ++ dquote ++ "Liquidation Vulnerability" ++ dquote ++ " Claims**:
   - ❌ Invalid unless report demonstrates:
     - Liquidation can be triggered prematurely or incorrectly
     - Fee extraction exceeds protocol limits
     - Liquidation process leaves residual debt or over-sells collateral
   - ✅ Valid if liquidation mechanism can be exploited

6. **" ++ dquote ++ "Interest Accrual Bugs" ++ dquote ++ " Claims**:
   - ❌ Invalid unless report demonstrates:
     - `distribute_interest()` miscalculates interest or shares
     - Interest index fails to update correctly
     - Attacker can mint unlimited shares through interest manipulation
   - ✅ Valid if interest calculations enable fund extraction

7. **" ++ dquote ++ "Collateral Ratio" ++ dquote ++ " Claims**:
   - ❌ Invalid unless report demonstrates:
     - Collateral ratio haircuts can be bypassed
     - Asset valuation can be manipulated for higher borrowing capacity
     - Cross-collateral calculations are incorrect
   - ✅ Valid if collateral calculations enable undercollateralization

8. **" ++ dquote ++ "Mathematical Overflow" ++ dquote ++ " Claims**:
   - ❌ Invalid unless report demonstrates:
     - Specific arithmetic operation overflows/underflows
     - Overflow causes incorrect LTV or share calculations
     - Attacker can exploit overflow for fund theft
   - ✅ Valid if mathematical errors enable fund loss

#### **Step 3: CROSS-REFERENCE WITH TEST SUITE**

Rujira's test suite includes comprehensive tests (out of scope but informative). Ask:

1. **Existing Coverage**: Do current tests handle the scenario? Check tests like:
   - `rujira-ghost-credit/src/tests/contract.rs` - account lifecycle
   - Vault tests for interest distribution and borrowing
   - Account tests for sudo pattern and isolation

2. **Test Gaps**: Is there an obvious gap that would allow the exploit? If scenario is untested, suggest adding test but do **not** assume vulnerability.

3. **Invariant Tests**: Would existing invariant checks catch the bug? Tests verify:
   - Owner-gated account operations
   - Post-adjustment LTV checks
   - Safe liquidation outcomes
   - Always-accrued interest

4. **PoC Feasibility**: Can the report's PoC be implemented as a Rust test using existing contracts without modifying core code?

**Test Case Realism Check**: PoCs must use realistic account structures, valid collateral amounts, and respect protocol constraints.

### **PHASE 3: IMPACT & EXPLOITABILITY VALIDATION**

#### **Impact Must Be CONCRETE and ALIGN WITH CODE4RENA SCOPE**

**✅ Valid CRITICAL Severity Impacts (per Code4rena scope):**

1. **Direct Loss of Funds (Critical)**:
   - Theft of user collateral from credit accounts
   - Theft of vault assets through share manipulation
   - Unauthorized borrowing from vaults
   - Collateral drainage through mathematical exploits
   - Example: " ++ dquote ++ "Share price manipulation allows attacker to drain 1000 USDC from vault" ++ dquote ++ "

2. **Protocol Insolvency (Critical)**:
   - Systemic undercollateralization causing protocol-wide losses
   - LTV calculation errors enabling mass undercollateralization
   - Share supply overflow preventing all operations
   - Example: " ++ dquote ++ "LTV calculation bug allows all accounts to become undercollateralized simultaneously" ++ dquote ++ "

3. **Permanent Freezing of Funds (Critical)**:
   - Funds locked with no transaction able to unlock them
   - Account bricking preventing collateral withdrawal
   - Share supply overflow preventing withdrawals
   - Example: " ++ dquote ++ "Account creation bug locks 500 BTC collateral permanently" ++ dquote ++ "

**✅ Valid HIGH Severity Impacts:**

4. **Temporary Freezing with Economic Loss (High)**:
   - Funds temporarily frozen causing economic damage
   - Widespread liquidations due to protocol bugs
   - Systemic undercollateralization risks
   - Example: " ++ dquote ++ "Liquidation bug causes 100 accounts to be liquidated unnecessarily" ++ dquote ++ "

**✅ Valid MEDIUM Severity Impacts:**

5. **Economic Manipulation (Medium)**:
   - Interest rate manipulation benefiting attackers
   - Liquidation bonus extraction beyond intended amounts
   - State inconsistencies requiring manual intervention
   - Example: " ++ dquote ++ "Interest accrual bug allows attacker to extract 10 ETH in excess interest" ++ dquote ++ "

6. **State Inconsistencies (Medium)**:
   - Interest or fee calculation errors
   - DoS vulnerabilities affecting core functionality
   - LTV calculation inconsistencies
   - Example: " ++ dquote ++ "LTV calculation bug causes 5% error in collateral requirements" ++ dquote ++ "

**❌ Invalid " ++ dquote ++ "Impacts" ++ dquote ++ ":**

- User withdraws their own collateral (normal protocol operation)
- Attacker loses their own funds through self-draining (not an exploit)
- Theoretical cryptographic weaknesses without practical exploit
- General market risk (price movements) unless caused by protocol bugs
- " ++ dquote ++ "Could be problematic if..." ++ dquote ++ " statements without concrete exploit path
- Minor fee overpayment or underpayment (<0.1% of transaction value)
- Precision loss <0.01% across reasonable transaction volumes

#### **Likelihood Reality Check**

Assess exploit feasibility:

1. **Attacker Profile**:
   - Any user with THORChain secured assets to deposit? ✅ Likely
   - Liquidator monitoring for undercollateralized accounts? ✅ Possible
   - Attacker with ability to manipulate THORChain oracles? ❌ Impossible (trusted role)
   - Compromised Rujira Deployer Multisig? ❌ Impossible (trusted role)

2. **Preconditions**:
   - Normal market operation? ✅ High likelihood
   - High vault utilization? ✅ Possible during volatile periods
   - Specific account structure (multiple collateral types)? ✅ Attacker-controlled
   - Specific oracle state (price movements)? ✅ Attacker can time submission
   - Network congestion or high gas prices? ✅ Possible but not required

3. **Execution Complexity**:
   - Single ExecuteMsg call? ✅ Simple
   - Multiple coordinated transactions? ✅ Moderate (attacker controls)
   - Complex account with multiple collateral types? ✅ Attacker can create
   - Requires precise timing or front-running? ⚠️ Higher complexity
   - Requires mathematical precision? ✅ Attacker can calculate

4. **Economic Cost**:
   - Collateral deposit required? ✅ Attacker-determined (can be minimal)
   - Gas costs for transactions? ✅ Moderate
   - Potential profit vs. cost? ✅ Must be positive for valid exploit
   - Liquidation capital required? ✅ Varies by opportunity

5. **Combined Probability**:
   - Multiply probabilities of all conditions
   - If resulting likelihood <0.1% with no economic incentive → Invalid
   - If exploit is profitable and feasible → Valid

### **PHASE 4: FINAL VALIDATION CHECKLIST**

Before accepting any vulnerability, verify:

1. **Scope Compliance**: Vulnerability affects only the 3 in-scope contracts
2. **Not Known Issue**: Check against Halborn audit reports
3. **Trust Model**: Exploit doesn't require THORChain oracle or Deployer Multisig compromise
4. **Impact Severity**: Meets Critical/High/Medium per Code4rena scope
5. **Economic Incentive**: Attack must be profitable for attacker
6. **Technical Feasibility**: Exploit can be implemented without protocol modifications
7. **Invariant Violation**: Clearly breaks one of the 10 documented Rujira invariants
8. **PoC Completeness**: Rust test runs successfully against unmodified codebase

**Remember**: False positives harm credibility. Assume claims are invalid until overwhelming evidence proves otherwise.

---

**AUDIT REPORT FORMAT** (if vulnerability found):  
  
Audit Report  
  
## Title   
The Title Of the Report   
  
## Summary  
A short summary of the issue, keep it brief.  
  
## Finding Description  
A more detailed explanation of the issue. Poorly written or incorrect findings may result in rejection and a decrease of reputation score.  
  
Describe which security guarantees it breaks and how it breaks them. If this bug does not automatically happen, showcase how a malicious input would propagate through the system to the part of the code where the issue occurs.  
  
## Impact Explanation  
Elaborate on why you've chosen a particular impact assessment.  
  
## Likelihood Explanation  
Explain how likely this is to occur and why.  
  
## Recommendation  
How can the issue be fixed or solved. Preferably, you can also add a snippet of the fixed code here.  
  
## Proof of Concept  
A proof of concept is normally required for Critical, High and Medium Submissions for reviewers under 80 reputation points. Please check the competition page for more details, otherwise your submission may be rejected by the judges.  
Very important the test function using their test must be provided in here and pls it must be able to compile and run successfully  
  
**Remember**: False positives harm credibility more than missed findings.  Assume claims are invalid until overwhelming evidence proves otherwise.  
  
**Now perform STRICT validation of the claim above.**  
  
**Output ONLY:**  
- A full audit report (if genuinely valid after passing **all** checks above) following the specified format  
- `#NoVulnerability found for this question.` (if **any** check fails)  very important 
  
**Be ruthlessly skeptical.  The bar for validity is EXTREMELY valid.**  
").

(** [question_generator], template text of source lines 706-717. *)
Definition generator_part_0 : string :=
  "
# **Generate 150+ Targeted Security Audit Questions for Rujira Protocol**

## **Context**

The target project is **Rujira**, an overcollateralized lending protocol built on THORChain using CosmWasm. The protocol enables users to deposit THORChain secured assets as collateral and borrow against them through a sophisticated three-contract system. Unlike traditional lending protocols, Rujira employs isolated accounting through individual `rujira-account` instances, orchestrated by a `rujira-ghost-credit` registry, with assets held in `rujira-ghost-vault` lending pools. The protocol maintains solvency through dynamic LTV calculations, collateral ratio haircuts, and permissionless liquidation mechanisms, while supporting complex features like multi-collateral accounts, cross-collateralization, and adaptive interest rates.

Rujira's architecture includes critical components for account creation, collateral management, borrowing operations, liquidation handling, interest accrual, and access control through the sudo pattern. The protocol maintains financial integrity through strict ownership validation, real-time LTV enforcement, and comprehensive asset accounting across all three contracts.

## **Scope**

**CRITICAL TARGET FILE**: Focus question generation EXCLUSIVELY on `".

(** [question_generator], template text of source lines 717-719. *)
Definition generator_part_1 : string :=
  "`

Note: The questions must be generated from **`".

(** [question_generator], template text of source lines 719-742. *)
Definition generator_part_2 : string :=
  ("`** only. If you cannot generate enough questions from this single file, provide as many quality questions as you can extract from the file's logic and interactions. **DO NOT return empty results** - give whatever questions you can derive from the target file.

If you cannot reach 150 questions from this file alone, generate as many high-quality questions as the file's complexity allows (minimum target: 50-100 questions for large critical files, 20-50 for smaller files).

**Full Context - 3 In-Scope Files (for reference only):**
If a file is more than a thousand lines you can generate as many as 300+ questions as you can, but always generate as many as you can - don't give other responses.
If there are math logic functions, also generate as many questions based on all the math logic among the questions you're giving me to cover all scope and entry points.

### **Core Protocol Contracts - 3 files**

```python
core_files = [
    " ++ dquote ++ "contracts/rujira-account/src/contract.rs" ++ dquote ++ ",        # sudo pattern, isolated accounting
    " ++ dquote ++ "contracts/rujira-account/src/execute.rs" ++ dquote ++ ",         # message forwarding
    " ++ dquote ++ "contracts/rujira-ghost-credit/src/contract.rs" ++ dquote ++ ",   # registry, orchestration
    " ++ dquote ++ "contracts/rujira-ghost-credit/src/account.rs" ++ dquote ++ ",     # LTV calculations
    " ++ dquote ++ "contracts/rujira-ghost-credit/src/config.rs" ++ dquote ++ ",      # protocol parameters
    " ++ dquote ++ "contracts/rujira-ghost-vault/src/contract.rs" ++ dquote ++ ",     # vault operations
    " ++ dquote ++ "contracts/rujira-ghost-vault/src/state.rs" ++ dquote ++ ",        # share accounting
    " ++ dquote ++ "contracts/rujira-ghost-vault/src/borrowers.rs" ++ dquote ++ ",    # borrower limits
]
```

**Total: 8 files in full scope (but focus ONLY on `").

(** [question_generator], template text of source lines 742-888. *)
Definition generator_part_3 : string :=
  "` for this generation)**

---

## **Rujira Protocol Architecture & Layers**

### **1. Account Management Layer** (`rujira-account`)

- **Sudo Pattern**: `rujira-account` instances only accept `sudo` calls from registry, rejecting all direct `execute` calls
- **Isolated Accounting**: Each account is a separate contract instance with siloed balance tracking
- **Message Forwarding**: Registry forwards operations through `SudoMsg` to account contracts
- **Access Control**: Only registry can drive account-level operations and token transfers

### **2. Credit Registry Layer** (`rujira-ghost-credit`)

- **Account Orchestration**: Registry coordinates all account operations through `ExecuteMsg::Account`
- **LTV Enforcement**: Real-time loan-to-value calculations with `adjusted_ltv` checks
- **Liquidation Management**: Permissionless liquidation triggers and queue processing
- **Vault Whitelisting**: Only approved vaults can be used for borrowing operations
- **Configuration Validation**: All parameter changes validated through `Config::validate`

### **3. Lending Vault Layer** (`rujira-ghost-vault`)

- **Share-Based Accounting**: ERC4626-style vault with `totalAssets()` and `totalSupply()` tracking
- **Interest Distribution**: Always-accrued interest model with `distribute_interest()` on every operation
- **Borrower Management**: Whitelisted borrowers with USD value limits per borrower
- **Asset Management**: Deposit, withdraw, borrow, and repay operations with proper accounting

---

## **Critical Security Invariants**

### **Access Control & Ownership**

1. **Owner-Gated Accounts**: Only `account.owner` can initiate operations via `ExecuteMsg::Account`
2. **Admin-Only Accounts**: `rujira-account` instances only accept `sudo` calls from registry
3. **Governance-Whitelisted Borrowers**: Only pre-approved contracts can borrow from vaults
4. **Whitelisted Vault Access**: Registry only routes to vaults listed in `collateral_ratios`

### **LTV & Solvency**

5. **Post-Adjustment LTV Check**: After any owner operation, `adjusted_ltv` must be `< adjustment_threshold`
6. **Safe Liquidation Outcomes**: Liquidations only trigger when `adjusted_ltv >= liquidation_threshold`
7. **Borrow Limit Enforcement**: Each borrower has a maximum USD value they can borrow
8. **Bounded Config Values**: All configuration changes validated via `Config::validate`

### **Financial Integrity**

9. **Fee-First Liquidation Repay**: Protocol and liquidator fees extracted before debt repayment
10. **Always-Accrued Interest**: `distribute_interest()` called before all operations
11. **Collateral Ratio Haircuts**: Each collateral type has a `collateral_ratio` haircut for risk management
12. **Cross-Collateral Limits**: Cross-buffer ratio scales conservatively with utilization

---

## **In-Scope Vulnerability Categories** (from Code4rena)

Focus questions on vulnerabilities that lead to these impacts:

### **Critical Severity**

1. **Direct loss of funds**
   - LTV calculation errors allowing undercollateralized borrowing
   - Share price manipulation allowing asset drainage from vaults
   - Interest accrual bugs causing unlimited asset minting
   - Access control bypasses enabling unauthorized borrowing

2. **Permanent freezing of funds**
   - Account bricking preventing collateral withdrawal
   - Share supply overflow preventing all vault operations
   - Interest state corruption blocking position closures
   - Invalid account states locking funds permanently

3. **Protocol insolvency**
   - Collateral requirement calculation errors
   - Liquidation bonus extraction causing protocol loss
   - Cross-collateralization bugs causing systemic undercollateralization
   - Premium settlement errors causing fund drainage

### **High Severity**

4. **Temporary freezing of funds**
   - Liquidation failures preventing account closures
   - Oracle stale prices blocking all operations
   - Interest accrual overflow preventing withdrawals
   - Account transfer restrictions bypassed incorrectly

5. **Incorrect protocol behavior**
   - LTV calculation errors producing wrong solvency results
   - Interest distribution bugs favoring certain users
   - Borrower limit bypasses through delegate borrowing
   - Vault configuration errors

### **Medium Severity**

6. **Economic manipulation**
   - Interest rate manipulation through utilization attacks
   - Liquidation bonus extraction beyond intended amounts
   - Share price manipulation in vaults
   - Gas griefing through expensive operations

7. **State inconsistencies**
   - Asset accounting mismatches between contracts
   - Interest index calculation inaccuracies
   - Account balance tracking errors
   - Oracle state divergence

---

## **Valid Impact Categories (Restated for Rujira)**

### **Critical**

- Direct theft of user collateral or vault assets
- Permanent fund freezing requiring protocol redeployment
- Protocol insolvency leading to systemic loss
- Unlimited asset minting or share price collapse

### **High**

- Temporary fund freezing with economic loss
- Systemic undercollateralization risks
- Widespread account liquidations due to bugs
- Access control bypasses enabling theft

### **Medium**

- Economic manipulation benefiting attackers
- State inconsistencies requiring manual intervention
- Interest or fee calculation errors
- DoS vulnerabilities affecting core functionality

### **Out of Scope**

- Gas optimization inefficiencies
- UI/UX issues in frontends
- Market risk (price movements)
- THORChain network failures
- MEV or front-running attacks
- Theoretical attacks without economic impact

---

## **Goals for Question Generation**

1. **Real Exploit Scenarios**: Each question describes a plausible attack an attacker, liquidator, or malicious user could perform
2. **Concrete & Actionable**: Reference specific functions, variables, or logic flows in `".

(** [question_generator], template text of source lines 888-891. *)
Definition generator_part_4 : string :=
  "`
3. **High Impact**: Prioritize questions leading to Critical/High/Medium impacts per Code4rena scope
4. **Deep Financial Logic**: Focus on subtle state transitions, cross-contract interactions, rounding errors, LTV calculation bugs
5. **Breadth Within Target File**: Cover all major functions, edge cases, and state-changing operations in `".

(** [question_generator], template text of source lines 891-893. *)
Definition generator_part_5 : string :=
  ("`
6. **Respect Trust Model**: THORChain oracles and Rujira Deployer Multisig are trusted; focus on attacks by regular users
7. **No Generic Questions**: Avoid " ++ dquote ++ "are there access control issues?" ++ dquote ++ " → Instead: " ++ dquote ++ "In `").

(** [question_generator], template text of source lines 893-903. *)
Definition generator_part_6 : string :=
  (": functionName()`, if condition X occurs, can attacker exploit Y to cause Z impact?" ++ dquote ++ "

---

## **Question Format Template**

Each question MUST follow this Python list format:

```python
questions = [
    " ++ dquote ++ "[File: ").

(** [question_generator], template text of source lines 903-905. *)
Definition generator_part_7 : string :=
  ("] [Function: functionName()] [Vulnerability Type] Specific question describing attack vector, preconditions, and impact linking to Code4rena categories?" ++ dquote ++ ",
    
    " ++ dquote ++ "[File: ").

(** [question_generator], template text of source lines 905-926. *)
Definition generator_part_8 : string :=
  ("] [Function: anotherFunction()] [Vulnerability Type] Another specific question with concrete exploit scenario?" ++ dquote ++ ",
    
    # ... continue with all generated questions
]
```

**Example Format** (if target_file is `contracts/rujira-ghost-credit/src/contract.rs`):
```python
questions = [
    " ++ dquote ++ "[File: contracts/rujira-ghost-credit/src/contract.rs] [Function: execute()] [LTV bypass] Can an attacker craft a malicious AccountMsg sequence that passes initial ownership checks but manipulates collateral prices between operations to bypass adjusted_ltv validation, allowing them to open undercollateralized positions and potentially drain vault funds?" ++ dquote ++ ",
    
    " ++ dquote ++ "[File: contracts/rujira-ghost-credit/src/contract.rs] [Function: liquidate()] [Liquidation manipulation] Does the liquidation queue correctly handle edge cases where asset prices fluctuate during liquidation, potentially allowing liquidators to extract higher bonuses than intended or leaving accounts in unsafe states?" ++ dquote ++ ",
    
    " ++ dquote ++ "[File: contracts/rujira-ghost-credit/src/contract.rs] [Function: create_account()] [Access control] Can an attacker bypass the account creation validation to create accounts with invalid configurations, potentially leading to account bricking or unauthorized access to borrowed funds?" ++ dquote ++ ",
]
```

---

## **Output Requirements**

Generate security audit questions focusing EXCLUSIVELY on **`").

(** [question_generator], template text of source lines 926-928. *)
Definition generator_part_9 : string :=
  "`** that:

1. **Target ONLY `".

(** [question_generator], template text of source lines 928-929. *)
Definition generator_part_10 : string :=
  "`** - all questions must reference this file
2. **Reference specific functions, variables, or logic sections** within `".

(** [question_generator], template text of source lines 929-930. *)
Definition generator_part_11 : string :=
  ("`
3. **Describe concrete attack vectors** (not " ++ dquote ++ "could there be a bug?" ++ dquote ++ " but " ++ dquote ++ "can attacker do X by exploiting Y in `").

(** [question_generator], template text of source lines 930-933. *)
Definition generator_part_12 : string :=
  ("`?" ++ dquote ++ ")
4. **Tie to Code4rena impact categories** (fund loss, freezing, insolvency, manipulation, DoS)
5. **Respect trust model** (THORChain oracles and Deployer Multisig are trusted; focus on user/attacker actions)
6. **Cover diverse attack surfaces** within `").

(** [question_generator], template text of source lines 933-945. *)
Definition generator_part_13 : string :=
  "`: validation logic, state transitions, error handling, edge cases, interactions with other contracts
7. **Focus on high-severity bugs**: prioritize Critical > High > Medium impacts
8. **Avoid out-of-scope issues**: gas optimization, UI bugs, theoretical attacks without economic impact
9. **Use the exact Python list format** shown above
10. **Be detailed and technical**: assume auditor has deep DeFi knowledge; use precise terminology

**Target Question Count:**
- For large critical files (>500 lines like contract.rs files): Aim for 100-200 questions
- For medium files (-500 lines like state.rs, account.rs): Aim for 50-100 questions  
- For smaller files (< lines like config.rs, execute.rs): Aim for 20-50 questions
- **Provide as many quality questions as the file's complexity allows - do NOT return empty results**

**Begin generating questions for `".

(** [question_generator], template text of source lines 945-946. *)
Definition generator_part_14 : string :=
  "` now.
".

(** ** The composers *)

(** [f"...{question}..."]: the value of a [str] field is spliced in as it is. *)
Definition question_format (question : string) : M string :=
  let prompt := audit_head ++ question ++ audit_tail in
  ret prompt.

Definition validation_format (report : string) : M string :=
  let prompt := validation_head ++ report ++ validation_tail in
  ret prompt.

Definition question_generator (target_file : string) : M string :=
  let prompt :=
    generator_part_0 ++ target_file ++
    generator_part_1 ++ target_file ++
    generator_part_2 ++ target_file ++
    generator_part_3 ++ target_file ++
    generator_part_4 ++ target_file ++
    generator_part_5 ++ target_file ++
    generator_part_6 ++ target_file ++
    generator_part_7 ++ target_file ++
    generator_part_8 ++ target_file ++
    generator_part_9 ++ target_file ++
    generator_part_10 ++ target_file ++
    generator_part_11 ++ target_file ++
    generator_part_12 ++ target_file ++
    generator_part_13 ++ target_file ++
    generator_part_14 in
  ret prompt.

(** * Vocabulary of the properties *)

(** The document a call hands back (empty if the call raises). *)
Definition document (r : outcome string * world) : string :=
  match fst r with
  | Return doc => doc
  | Raise _ => EmptyString
  end.

(** Two calls in a row, the second in the state the first one leaves. *)
Definition twice {A} (c : M A) : M (A * A) :=
  x <- c ;; y <- c ;; ret (x, y).

(** The state [w] with another corpus and another registry bound. *)
Definition rebind (corpus : value) (registry : list string) (w : world) : world :=
  {| files := files w;
     open_files := open_files w;
     module_globals :=
       {| g_BASE_URL := g_BASE_URL (module_globals w);
          g_questions := Some corpus;
          g_questions_generator := Some registry |} |}.

(** What the loader hands back, read off the files of the working
    directory. *)
Definition loaded_corpus (json_loads : string -> outcome value)
    (dir : string -> file_status) : value :=
  match dir "all_questions.json" with
  | Text content =>
      match json_loads content with
      | Return v => v
      | Raise _ => VList []
      end
  | Absent | Unreadable | Undecodable => VList []
  end.

(** A working directory whose only entry is [all_questions.json], in the
    given status, before the module is imported. *)
Definition directory_with (corpus_file : file_status) : world :=
  {| files := fun name =>
       if name =? "all_questions.json" then corpus_file else Absent;
     open_files := 0;
     module_globals :=
       {| g_BASE_URL := None; g_questions := None;
          g_questions_generator := None |} |}.

Definition scenario_question : string :=
  "Can liquidation fees exceed the protocol-defined cap?".

(** Three JSON documents for the examples: a corpus of one question, an
    object and a number. *)
Definition corpus_text : string := "[" ++ dquote ++ scenario_question ++ dquote ++ "]".
Definition object_text : string := "{" ++ dquote ++ "note" ++ dquote ++ ": 1}".
Definition number_text : string := "42".

(** [json.loads] on the three documents above; any other text stands for a
    document that does not parse. *)
Definition loads_examples (text : string) : outcome value :=
  if text =? corpus_text then Return (VList [VStr scenario_question])
  else if text =? object_text then Return (VDict [("note", VInt 1)])
  else if text =? number_text then Return (VInt 42)
  else Raise JSONDecodeError.

(** ** Registry entries *)

Definition in_scope_directories : list string := [
    "contracts/rujira-account/src/";
    "contracts/rujira-ghost-credit/src/";
    "contracts/rujira-ghost-vault/src/"
  ].

Definition in_scope (path : string) : bool :=
  existsb (fun dir => prefix dir path) in_scope_directories.

Fixpoint distinct (l : list string) : bool :=
  match l with
  | [] => true
  | x :: rest => negb (existsb (String.eqb x) rest) && distinct rest
  end.

(** ** Lines of a document *)

Definition newline : ascii := ascii_of_nat 10.

(** [s.split("\n")] *)
Fixpoint split_lines (s : string) : list string :=
  match s with
  | EmptyString => [EmptyString]
  | String c rest =>
      if (c =? newline)%char then EmptyString :: split_lines rest
      else match split_lines rest with
           | line :: more => String c line :: more
           | [] => [String c EmptyString]
           end
  end.

(** A line without its trailing blanks. *)
Fixpoint rstrip (s : string) : string :=
  match s with
  | EmptyString => EmptyString
  | String c rest =>
      match rstrip rest with
      | EmptyString => if (c =? " ")%char then EmptyString else String c EmptyString
      | kept => String c kept
      end
  end.

Definition question_label : string := "**Security Question (scope for this run):** ".
Definition no_finding_sentinel : string := "#NoVulnerability found for this question.".

(** ** Fields and file tags of the question-generation prompt *)

(** The template text around the fourteen [{target_file}] fields. *)
Definition generator_parts : list string := [
    generator_part_0; generator_part_1; generator_part_2; generator_part_3;
    generator_part_4; generator_part_5; generator_part_6; generator_part_7;
    generator_part_8; generator_part_9; generator_part_10; generator_part_11;
    generator_part_12; generator_part_13; generator_part_14
  ].

(** The path written out in the template's "Example Format" block. *)
Definition example_path : string := "contracts/rujira-ghost-credit/src/contract.rs".

(** A file tag is [[File: text]]: the opening bracket and label, then the
    text up to the next closing bracket.  The scanner reads a document once,
    left to right, and collects the texts of its file tags in order. *)
Definition tag_opening : string := "[File: ".

Inductive scan_mode : Type :=
| Seeking (matched : nat)    (* the last [matched] characters begin a tag opening *)
| Reading (text : string).   (* inside a tag, [text] read so far *)

Definition scan_step (st : scan_mode * list string) (c : ascii)
  : scan_mode * list string :=
  match st with
  | (Seeking k, tags) =>
      if match get k tag_opening with
         | Some expected => (c =? expected)%char
         | None => false
         end
      then (if Nat.eqb (S k) (String.length tag_opening) then Reading EmptyString
            else Seeking (S k), tags)
      else if (c =? "[")%char then (Seeking 1, tags)
      else (Seeking 0, tags)
  | (Reading text, tags) =>
      if (c =? "]")%char then (Seeking 0, (tags ++ [text])%list)
      else (Reading (text ++ String c EmptyString), tags)
  end.

Fixpoint scan (st : scan_mode * list string) (s : string)
  : scan_mode * list string :=
  match s with
  | EmptyString => st
  | String c rest => scan (scan_step st c) rest
  end.

Definition file_tags (doc : string) : list string :=
  snd (scan (Seeking 0, []) doc).

(** A path with no square bracket in it. *)
Fixpoint bracket_free (s : string) : bool :=
  match s with
  | EmptyString => true
  | String c rest =>
      negb (c =? "[")%char && negb (c =? "]")%char && bracket_free rest
  end.

(** ** Further vocabulary *)

(** A text that holds no line break. *)
Fixpoint single_line (s : string) : bool :=
  match s with
  | EmptyString => true
  | String c rest => negb (c =? newline)%char && single_line rest
  end.

(** The line breaks of a text, counted. *)
Fixpoint line_breaks (s : string) : nat :=
  match s with
  | EmptyString => 0
  | String c rest =>
      if (c =? newline)%char then S (line_breaks rest) else line_breaks rest
  end.

(** The shape the corpus is expected to have: a list of strings. *)
Definition is_question_list (v : value) : bool :=
  match v with
  | VList items =>
      forallb (fun item => match item with VStr _ => true | _ => false end) items
  | _ => false
  end.

(** [s.endswith(suffix)] *)
Definition ends_with (suffix s : string) : bool :=
  substring (String.length s - String.length suffix) (String.length suffix) s
    =? suffix.

(** Where the [i]-th [{target_file}] field (counted from 0) starts in the
    prompt composed for [P]: after the first [i + 1] template parts and the
    [i] copies of [P] between them. *)
Definition field_offset (P : string) (i : nat) : nat :=
  String.length (String.concat P (firstn (S i) generator_parts)).

(** * Properties *)

(** ** Strings *)

Section StringFacts.

Lemma append_assoc (a b c : string) : (a ++ b) ++ c = a ++ b ++ c.
Proof. induction a as [|x a IH]; simpl; [reflexivity | now rewrite IH]. Qed.

Lemma length_append (a b : string) :
  String.length (a ++ b) = String.length a + String.length b.
Proof. induction a as [|x a IH]; simpl; [reflexivity | now rewrite IH]. Qed.

Lemma substring_take (a b : string) :
  substring 0 (String.length a) (a ++ b) = a.
Proof.
  induction a as [|x a IH]; simpl; [now destruct b | now rewrite IH].
Qed.

Lemma substring_skip (a b : string) (n m : nat) :
  substring (String.length a + n) m (a ++ b) = substring n m b.
Proof. induction a as [|x a IH]; simpl; [reflexivity | exact IH]. Qed.

Lemma substring_whole (s : string) : substring 0 (String.length s) s = s.
Proof. induction s as [|x s IH]; simpl; [reflexivity | now rewrite IH]. Qed.

(** What an f-string with one field looks like from outside. *)
Lemma splice_regions (head tail Q : string) :
  let n := String.length head in
  let m := String.length tail in
  let doc := head ++ Q ++ tail in
  String.length doc = n + String.length Q + m /\
  substring 0 n doc = head /\
  substring n (String.length Q) doc = Q /\
  substring (n + String.length Q) m doc = tail.
Proof.
  intros n m doc. subst n m doc. repeat split.
  - rewrite !length_append. lia.
  - apply substring_take.
  - rewrite <- (Nat.add_0_r (String.length head)), substring_skip.
    apply substring_take.
  - rewrite substring_skip.
    rewrite <- (Nat.add_0_r (String.length Q)), substring_skip.
    apply substring_whole.
Qed.

End StringFacts.

(** ** Joined strings *)

Section JoinFacts.

Variable sep : string.

(** [sep.join(front + back)] is the two joined halves with [sep] between. *)
Lemma concat_split (front back : list string) :
  front <> [] -> back <> [] ->
  String.concat sep (front ++ back) =
    String.concat sep front ++ sep ++ String.concat sep back.
Proof.
  induction front as [|x front IH]; intros Hfront Hback; [contradiction|].
  destruct front as [|y front].
  - destruct back as [|z back]; [contradiction | reflexivity].
  - change (String.concat sep ((x :: y :: front) ++ back)%list)
      with (x ++ sep ++ String.concat sep ((y :: front) ++ back)%list).
    rewrite IH by (discriminate || assumption).
    change (String.concat sep (x :: y :: front))
      with (x ++ sep ++ String.concat sep (y :: front)).
    now rewrite !append_assoc.
Qed.

(** Every gap between two joined parts holds [sep]. *)
Lemma joined_gap_reads_sep (parts : list string) (i : nat) :
  S i < List.length parts ->
  substring (String.length (String.concat sep (firstn (S i) parts)))
            (String.length sep) (String.concat sep parts) = sep.
Proof.
  intros Hi.
  assert (firstn (S i) parts <> []) as Hfront.
  { intros H. apply (f_equal (@List.length string)) in H.
    rewrite length_firstn in H. cbn [List.length] in H. lia. }
  assert (skipn (S i) parts <> []) as Hback.
  { intros H. apply (f_equal (@List.length string)) in H.
    rewrite length_skipn in H. cbn [List.length] in H. lia. }
  pose proof (concat_split _ _ Hfront Hback) as Hsplit.
  rewrite firstn_skipn in Hsplit. rewrite Hsplit.
  rewrite <- (Nat.add_0_r (String.length (String.concat sep (firstn (S i) parts)))).
  rewrite substring_skip. apply substring_take.
Qed.

End JoinFacts.

(** ** The corpus loader *)

Lemma world_eta (w : world) :
  {| files := files w; open_files := open_files w;
     module_globals := module_globals w |} = w.
Proof. now destruct w. Qed.

Section LoaderFacts.

Variable json_loads : string -> outcome value.

(** Opening the file, loading it and leaving the [with] block restores the
    state, whether the load returns or raises. *)
Lemma with_open_text (w : world) (content : string) :
  files w "all_questions.json" = Text content ->
  with_open "all_questions.json" (fun f => json_load json_loads f) w =
    (json_loads content, w).
Proof.
  intros Hfile.
  unfold with_open, bind, open, json_load, bind, read, close.
  rewrite Hfile. cbn. rewrite Hfile. cbn.
  now rewrite world_eta.
Qed.

Lemma with_open_undecodable (w : world) :
  files w "all_questions.json" = Undecodable ->
  with_open "all_questions.json" (fun f => json_load json_loads f) w =
    (Raise UnicodeDecodeError, w).
Proof.
  intros Hfile.
  unfold with_open, bind, open, json_load, bind, read, close.
  rewrite Hfile. cbn. rewrite Hfile. cbn.
  now rewrite world_eta.
Qed.

Lemma get_questions_parsed (w : world) (content : string) (v : value) :
  files w "all_questions.json" = Text content ->
  json_loads content = Return v ->
  get_questions json_loads w = (Return v, w).
Proof.
  intros Hfile Hparse. unfold get_questions, try_except.
  now rewrite (with_open_text w content Hfile), Hparse.
Qed.

Lemma get_questions_failed (w : world) :
  files w "all_questions.json" = Absent \/
  files w "all_questions.json" = Unreadable \/
  files w "all_questions.json" = Undecodable \/
  (exists content e,
      files w "all_questions.json" = Text content /\
      json_loads content = Raise e) ->
  get_questions json_loads w = (Return (VList []), w).
Proof.
  intros [Hfile | [Hfile | [Hfile | (content & e & Hfile & Hparse)]]];
    unfold get_questions, try_except.
  - unfold with_open, bind, open. now rewrite Hfile.
  - unfold with_open, bind, open. now rewrite Hfile.
  - now rewrite (with_open_undecodable w Hfile).
  - now rewrite (with_open_text w content Hfile), Hparse.
Qed.

Lemma get_questions_returns (w : world) :
  exists v, get_questions json_loads w = (Return v, w).
Proof.
  destruct (files w "all_questions.json") as [ | | |content] eqn:Hfile.
  - exists (VList []). apply get_questions_failed. auto.
  - exists (VList []). apply get_questions_failed. auto.
  - exists (VList []). apply get_questions_failed. auto.
  - destruct (json_loads content) as [v|e] eqn:Hparse.
    + exists v. now apply get_questions_parsed with content.
    + exists (VList []). apply get_questions_failed.
      right; right; right. now exists content, e.
Qed.

(** The loader in one equation. *)
Lemma get_questions_loaded (w : world) :
  get_questions json_loads w = (Return (loaded_corpus json_loads (files w)), w).
Proof.
  unfold loaded_corpus.
  destruct (files w "all_questions.json") as [ | | |content] eqn:Hfile.
  - apply get_questions_failed. auto.
  - apply get_questions_failed. auto.
  - apply get_questions_failed. auto.
  - destruct (json_loads content) as [v|e] eqn:Hparse.
    + now apply get_questions_parsed with content.
    + apply get_questions_failed. right; right; right. now exists content, e.
Qed.

End LoaderFacts.

(** ** The registry *)

Lemma distinct_NoDup (l : list string) : distinct l = true -> NoDup l.
Proof.
  induction l as [|x rest IH]; simpl; intros H.
  - constructor.
  - apply andb_true_iff in H. destruct H as [Hx Hrest].
    constructor; [|auto].
    intros Hin. apply negb_true_iff in Hx.
    assert (existsb (String.eqb x) rest = true) as Hex.
    { apply existsb_exists. exists x. split; [exact Hin | apply String.eqb_refl]. }
    congruence.
Qed.

(** ** The tag scanner *)

Section ScanFacts.

Lemma scan_append (a b : string) (st : scan_mode * list string) :
  scan st (a ++ b) = scan (scan st a) b.
Proof.
  revert st. induction a as [|c a IH]; intros st; simpl; [reflexivity | apply IH].
Qed.

(** Outside a tag, text without brackets opens nothing. *)
Lemma scan_seeking_bracket_free (P : string) (tags : list string) :
  bracket_free P = true ->
  scan (Seeking 0, tags) P = (Seeking 0, tags).
Proof.
  induction P as [|c P IH]; simpl; intros H; [reflexivity|].
  apply andb_true_iff in H. destruct H as [H HP].
  apply andb_true_iff in H. destruct H as [Hopen _].
  apply negb_true_iff in Hopen. rewrite Hopen. auto.
Qed.

(** Inside a tag, text without brackets is taken into the tag. *)
Lemma scan_reading_bracket_free (P text : string) (tags : list string) :
  bracket_free P = true ->
  scan (Reading text, tags) P = (Reading (text ++ P), tags).
Proof.
  revert text. induction P as [|c P IH]; simpl; intros text H.
  - f_equal. f_equal. clear H. induction text as [|x text IHt]; simpl; congruence.
  - apply andb_true_iff in H. destruct H as [H HP].
    apply andb_true_iff in H. destruct H as [_ Hclose].
    apply negb_true_iff in Hclose. rewrite Hclose.
    rewrite IH by exact HP. now rewrite append_assoc.
Qed.

End ScanFacts.

(** Runs the scanner over the next stretch of the document: a bracket-free
    field value by the two lemmas above, template text by evaluation. *)
Ltac scan_next HP :=
  match goal with
  | |- context [scan (Seeking 0, ?tags) ?P] =>
      rewrite (scan_seeking_bracket_free P tags HP)
  | |- context [scan (Reading ?text, ?tags) ?P] =>
      rewrite (scan_reading_bracket_free P text tags HP)
  | |- context [scan (?mode, ?tags) ?part] =>
      let r := eval vm_compute in (scan (mode, tags) part) in
      replace (scan (mode, tags) part) with r by (vm_compute; reflexivity)
  end.

(** ** The vocabulary on small inputs *)

Example split_lines_sample :
  split_lines ("a " ++ String newline ("b" ++ String newline "")) = ["a "; "b"; ""].
Proof. reflexivity. Qed.

Example rstrip_sample : rstrip "a b  " = "a b".
Proof. reflexivity. Qed.

(** Two tags, an unfinished one ignored. *)
Example file_tags_sample :
  file_tags "[[File: a.rs] [Function: f()] [Fi [File: b/c.rs][File: d" =
    ["a.rs"; "b/c.rs"].
Proof. reflexivity. Qed.

(** * The claims *)

(** C1. For every question [Q], [question_format] returns the fixed 524 bytes
    of the template head, then [Q], then the fixed bytes of the template tail:
    [Q] stands once, at offset 524, and for any other question [Q'] (asked in
    any state) the two documents agree on the bytes before and after the
    spliced region. *)
Theorem question_format_splices_question_once :
  forall (w w' : world) (Q Q' : string),
    let n := String.length audit_head in
    let m := String.length audit_tail in
    exists doc doc' : string,
      question_format Q w = (Return doc, w) /\
      question_format Q' w' = (Return doc', w') /\
      n = 524 /\
      doc = audit_head ++ Q ++ audit_tail /\
      String.length doc = n + String.length Q + m /\
      substring n (String.length Q) doc = Q /\
      substring 0 n doc = substring 0 n doc' /\
      substring (n + String.length Q) m doc =
        substring (n + String.length Q') m doc'.
Proof.
  intros w w' Q Q' n m.
  destruct (splice_regions audit_head audit_tail Q) as (Hlen & Hhead & Hmid & Htail).
  destruct (splice_regions audit_head audit_tail Q') as (_ & Hhead' & _ & Htail').
  exists (audit_head ++ Q ++ audit_tail), (audit_head ++ Q' ++ audit_tail).
  fold n m in Hlen, Hhead, Hmid, Htail, Hhead', Htail'.
  split; [reflexivity|]. split; [reflexivity|].
  split; [subst n; vm_compute; reflexivity|].
  split; [reflexivity|].
  split; [exact Hlen|]. split; [exact Hmid|].
  split; [now rewrite Hhead, Hhead' | now rewrite Htail, Htail'].
Qed.

(** C2. For every path [P], [question_generator] returns the fifteen
    template parts joined by [P]: each of the fourteen [{target_file}]
    fields of the template reads exactly [P], so no two of them disagree and
    no other value stands in a field.  The fields written in brackets, after
    [[File: ] and before []], are the fields 6 and 7 (the two entries of the
    question format template).  In particular every field of the prompt
    composed for [contracts/rujira-ghost-vault/src/state.rs] reads that
    path. *)
Theorem question_generator_fields_read_path :
  forall (w : world) (P : string),
    exists doc : string,
      question_generator P w = (Return doc, w) /\
      doc = String.concat P generator_parts /\
      List.length generator_parts = 15 /\
      Forall (fun i => substring (field_offset P i) (String.length P) doc = P)
             (seq 0 14) /\
      filter (fun i => ends_with "[File: " (nth i generator_parts "") &&
                       prefix "]" (nth (S i) generator_parts ""))
             (seq 0 14) = [6; 7].
Proof.
  intros w P. exists (String.concat P generator_parts).
  split; [reflexivity|]. split; [reflexivity|]. split; [reflexivity|].
  split.
  - apply Forall_forall. intros i Hi. apply in_seq in Hi.
    unfold field_offset. apply joined_gap_reads_sep.
    change (List.length generator_parts) with 15. lia.
  - vm_compute. reflexivity.
Qed.

(** The scenario of C2, evaluated: all fourteen fields of the prompt for
    [contracts/rujira-ghost-vault/src/state.rs] read that path, and the two
    bracketed ones stand as [[File: contracts/rujira-ghost-vault/src/state.rs]]. *)
Example question_generator_state_rs_fields :
  let P := "contracts/rujira-ghost-vault/src/state.rs" in
  let doc := document (question_generator P (directory_with Absent)) in
  Forall (fun i => substring (field_offset P i) (String.length P) doc = P)
         (seq 0 14) /\
  Forall (fun i => substring (field_offset P i - 7) (7 + String.length P + 1) doc =
                     "[File: " ++ P ++ "]")
         [6; 7].
Proof.
  cbv zeta. split.
  - cbn [seq].
    repeat (apply Forall_cons; [vm_compute; reflexivity|]). apply Forall_nil.
  - repeat (apply Forall_cons; [vm_compute; reflexivity|]). apply Forall_nil.
Qed.

(** Refutes C3 as stated: a corpus file that holds a JSON object is
    readable and parses, but not to a list of questions; the loader hands
    back the object, not the empty list. *)
Lemma get_questions_keeps_malformed_corpus :
  loads_examples object_text = Return (VDict [("note", VInt 1)]) /\
  is_question_list (VDict [("note", VInt 1)]) = false /\
  fst (get_questions loads_examples (directory_with (Text object_text))) =
    Return (VDict [("note", VInt 1)]) /\
  fst (get_questions loads_examples (directory_with (Text object_text))) <>
    Return (VList []).
Proof.
  assert (get_questions loads_examples (directory_with (Text object_text)) =
          (Return (VDict [("note", VInt 1)]), directory_with (Text object_text)))
    as Hrun by (apply get_questions_parsed with object_text; reflexivity).
  split; [reflexivity|]. split; [reflexivity|].
  rewrite Hrun. split; [reflexivity | discriminate].
Qed.

(** C3 (amended). When [all_questions.json] can be read and parses to a list
    of question strings, [get_questions] returns that list as parsed, in
    order; when it parses to a value of another shape, that value is returned
    as it is; when opening, reading or parsing fails (file absent,
    unreadable, undecodable, or not JSON) the empty list is returned; and in
    every state the loader returns a value, raises nothing and leaves the
    state (open files included) as it found it. *)
Theorem get_questions_contract :
  forall (json_loads : string -> outcome value) (w : world),
    (forall (content : string) (qs : list string),
        files w "all_questions.json" = Text content ->
        json_loads content = Return (VList (map VStr qs)) ->
        get_questions json_loads w = (Return (VList (map VStr qs)), w)) /\
    (forall (content : string) (v : value),
        files w "all_questions.json" = Text content ->
        json_loads content = Return v ->
        is_question_list v = false ->
        get_questions json_loads w = (Return v, w)) /\
    (files w "all_questions.json" = Absent \/
     files w "all_questions.json" = Unreadable \/
     files w "all_questions.json" = Undecodable \/
     (exists content e,
         files w "all_questions.json" = Text content /\
         json_loads content = Raise e) ->
     get_questions json_loads w = (Return (VList []), w)) /\
    (exists v, get_questions json_loads w = (Return v, w)).
Proof.
  intros json_loads w. split; [|split; [|split]].
  - intros content qs Hfile Hparse.
    now apply get_questions_parsed with content.
  - intros content v Hfile Hparse _.
    now apply get_questions_parsed with content.
  - apply get_questions_failed.
  - apply get_questions_returns.
Qed.

Lemma get_questions_contract_witness :
  get_questions loads_examples (directory_with (Text corpus_text)) =
    (Return (VList [VStr scenario_question]), directory_with (Text corpus_text)) /\
  get_questions loads_examples (directory_with (Text number_text)) =
    (Return (VInt 42), directory_with (Text number_text)) /\
  get_questions loads_examples (directory_with Absent) =
    (Return (VList []), directory_with Absent) /\
  get_questions loads_examples (directory_with (Text "[")) =
    (Return (VList []), directory_with (Text "[")).
Proof.
  split; [|split; [|split]].
  - apply (proj1 (get_questions_contract loads_examples
                    (directory_with (Text corpus_text)))
             corpus_text [scenario_question]); reflexivity.
  - apply (proj1 (proj2 (get_questions_contract loads_examples
                           (directory_with (Text number_text))))
             number_text (VInt 42)); reflexivity.
  - apply (proj1 (proj2 (proj2 (get_questions_contract loads_examples
                                  (directory_with Absent))))).
    left. reflexivity.
  - apply (proj1 (proj2 (proj2 (get_questions_contract loads_examples
                                  (directory_with (Text "[")))))).
    right; right; right. exists "[", JSONDecodeError. split; reflexivity.
Defined.

(** C4. In the audit prompt composed for the question "Can liquidation fees
    exceed the protocol-defined cap?", the one line that carries the question
    label (line 8 of the document) is the label followed by exactly that
    sentence and the two blanks that end the template's lines, and the line
    after the instruction "state exactly:" (line 230) is the sentinel
    [#NoVulnerability found for this question.] in backquotes, followed by
    the same two blanks. *)
Theorem audit_prompt_scenario :
  forall w : world,
    exists doc : string,
      question_format scenario_question w = (Return doc, w) /\
      nth_error (split_lines doc) 8 =
        Some (question_label ++ scenario_question ++ "  ") /\
      filter (prefix question_label) (split_lines doc) =
        [question_label ++ scenario_question ++ "  "] /\
      option_map rstrip (nth_error (split_lines doc) 8) =
        Some (question_label ++ scenario_question) /\
      nth_error (split_lines doc) 229 =
        Some "If **no** valid vulnerability emerges after thorough investigation, state exactly:   " /\
      nth_error (split_lines doc) 230 =
        Some ("`" ++ no_finding_sentinel ++ "`  ") /\
      option_map rstrip (nth_error (split_lines doc) 230) =
        Some ("`" ++ no_finding_sentinel ++ "`").
Proof.
  intros w. exists (audit_head ++ scenario_question ++ audit_tail).
  split; [reflexivity|].
  do 5 (split; [vm_compute; reflexivity|]).
  vm_compute. reflexivity.
Qed.

(** C5. For every report [R], [validation_format] returns the template head,
    then [R], then the template tail: [R] is a contiguous substring of the
    document, and the bytes before and after it are the same for every report
    and every state. *)
Theorem validation_format_splices_report :
  forall (w w' : world) (R R' : string),
    let n := String.length validation_head in
    let m := String.length validation_tail in
    exists doc doc' : string,
      validation_format R w = (Return doc, w) /\
      validation_format R' w' = (Return doc', w') /\
      doc = validation_head ++ R ++ validation_tail /\
      String.length doc = n + String.length R + m /\
      substring n (String.length R) doc = R /\
      substring 0 n doc = substring 0 n doc' /\
      substring (n + String.length R) m doc =
        substring (n + String.length R') m doc'.
Proof.
  intros w w' R R' n m.
  destruct (splice_regions validation_head validation_tail R)
    as (Hlen & Hhead & Hmid & Htail).
  destruct (splice_regions validation_head validation_tail R')
    as (_ & Hhead' & _ & Htail').
  exists (validation_head ++ R ++ validation_tail),
         (validation_head ++ R' ++ validation_tail).
  fold n m in Hlen, Hhead, Hmid, Htail, Hhead', Htail'.
  split; [reflexivity|]. split; [reflexivity|]. split; [reflexivity|].
  split; [exact Hlen|]. split; [exact Hmid|].
  split; [now rewrite Hhead, Hhead' | now rewrite Htail, Htail'].
Qed.

(** C6. Calling a composer twice in a row on the same input gives the same
    document both times and leaves the state as it was; a call on that input
    in any other state gives that document again. *)
Theorem composers_idempotent :
  forall (w w' : world) (s : string),
    (exists doc, twice (question_format s) w = (Return (doc, doc), w) /\
                 question_format s w' = (Return doc, w')) /\
    (exists doc, twice (validation_format s) w = (Return (doc, doc), w) /\
                 validation_format s w' = (Return doc, w')) /\
    (exists doc, twice (question_generator s) w = (Return (doc, doc), w) /\
                 question_generator s w' = (Return doc, w')).
Proof.
  intros w w' s.
  split; [|split]; eexists; split; reflexivity.
Qed.

(** C7. The document of each composer is the same whatever corpus and
    whatever registry the module's globals hold. *)
Theorem composers_ignore_corpus_and_registry :
  forall (w : world) (corpus : value) (registry : list string) (s : string),
    fst (question_format s (rebind corpus registry w)) =
      fst (question_format s w) /\
    fst (validation_format s (rebind corpus registry w)) =
      fst (validation_format s w) /\
    fst (question_generator s (rebind corpus registry w)) =
      fst (question_generator s w).
Proof.
  intros w corpus registry s.
  split; [|split]; reflexivity.
Qed.

(** C8. Each composer returns a document for every input text and never
    raises; for the empty text the document is the bare template. *)
Theorem composers_total :
  forall (w : world) (s : string),
    (exists doc, question_format s w = (Return doc, w)) /\
    (exists doc, validation_format s w = (Return doc, w)) /\
    (exists doc, question_generator s w = (Return doc, w)) /\
    question_format "" w = (Return (audit_head ++ audit_tail), w) /\
    validation_format "" w = (Return (validation_head ++ validation_tail), w) /\
    question_generator "" w = (Return (String.concat "" generator_parts), w).
Proof.
  intros w s.
  split; [eexists; reflexivity|].
  split; [eexists; reflexivity|].
  split; [eexists; reflexivity|].
  split; [reflexivity|]. split; reflexivity.
Qed.

(** C9. Whatever value the text of [all_questions.json] parses to,
    [get_questions] returns that value itself: an object or a number is
    handed back as parsed, not replaced by the empty list. *)
Theorem get_questions_returns_parsed_value :
  forall (json_loads : string -> outcome value) (w : world)
         (content : string) (v : value),
    files w "all_questions.json" = Text content ->
    json_loads content = Return v ->
    get_questions json_loads w = (Return v, w).
Proof.
  intros json_loads w content v. apply get_questions_parsed.
Qed.

Lemma get_questions_returns_parsed_value_witness :
  get_questions loads_examples (directory_with (Text object_text)) =
    (Return (VDict [("note", VInt 1)]), directory_with (Text object_text)) /\
  get_questions loads_examples (directory_with (Text number_text)) =
    (Return (VInt 42), directory_with (Text number_text)).
Proof.
  split.
  - apply (get_questions_returns_parsed_value loads_examples
             (directory_with (Text object_text)) object_text); reflexivity.
  - apply (get_questions_returns_parsed_value loads_examples
             (directory_with (Text number_text)) number_text); reflexivity.
Defined.

(** C10. [questions_generator] lists 19 paths, no two equal, none empty,
    each starting with one of the three in-scope source directories. *)
Theorem questions_generator_shape :
  List.length questions_generator = 19 /\
  NoDup questions_generator /\
  Forall (fun path => path <> "" /\ in_scope path = true) questions_generator.
Proof.
  split; [reflexivity|]. split.
  - apply distinct_NoDup. vm_compute. reflexivity.
  - unfold questions_generator.
    repeat (constructor; [split; [discriminate | reflexivity] | ]).
    constructor.
Qed.

(** * Further properties of the module *)

(** ** Lines *)

Section LineFacts.

Lemma split_lines_nonempty (s : string) : split_lines s <> [].
Proof.
  induction s as [|c s IH]; cbn [split_lines]; [discriminate|].
  destruct (c =? newline)%char; [discriminate|].
  destruct (split_lines s); [contradiction | discriminate].
Qed.

(** A line break in the text ends one list of lines and starts the next. *)
Lemma split_lines_break (a b : string) :
  split_lines (a ++ String newline b) = (split_lines a ++ split_lines b)%list.
Proof.
  induction a as [|c a IH]; [reflexivity|].
  cbn [append split_lines]. rewrite IH.
  destruct (c =? newline)%char; [reflexivity|].
  destruct (split_lines a) as [|line more] eqn:Ha; [|reflexivity].
  now destruct (split_lines_nonempty a).
Qed.

Lemma split_lines_single (s : string) :
  single_line s = true -> split_lines s = [s].
Proof.
  induction s as [|c s IH]; cbn [single_line split_lines]; [reflexivity|].
  intros H. apply andb_true_iff in H. destruct H as [Hc Hs].
  apply negb_true_iff in Hc. rewrite Hc, (IH Hs). reflexivity.
Qed.

Lemma split_lines_length (s : string) :
  List.length (split_lines s) = S (line_breaks s).
Proof.
  induction s as [|c s IH]; cbn [split_lines line_breaks]; [reflexivity|].
  destruct (c =? newline)%char; cbn [List.length]; [now rewrite IH|].
  destruct (split_lines s); cbn [List.length] in *; congruence.
Qed.

Lemma line_breaks_append (a b : string) :
  line_breaks (a ++ b) = line_breaks a + line_breaks b.
Proof.
  induction a as [|c a IH]; cbn [append line_breaks]; [reflexivity|].
  destruct (c =? newline)%char; cbn [Nat.add]; now rewrite IH.
Qed.

Lemma append_empty_r (s : string) : s ++ "" = s.
Proof. induction s as [|c s IH]; cbn; congruence. Qed.

(** The lines of a template with one field, when the field stands on the
    line that [label] begins and [trail] ends. *)
Lemma field_lines (head tail above label trail below Q : string) :
  head = above ++ String newline label ->
  tail = trail ++ String newline below ->
  split_lines (head ++ Q ++ tail) =
    (split_lines above ++ split_lines (label ++ Q ++ trail) ++ split_lines below)%list.
Proof.
  intros -> ->.
  rewrite append_assoc. cbn [append].
  rewrite split_lines_break. f_equal.
  replace (label ++ Q ++ trail ++ String newline below)
    with ((label ++ Q ++ trail) ++ String newline below)
    by now rewrite !append_assoc.
  apply split_lines_break.
Qed.

End LineFacts.

(** The lines of an audit prompt: the template lines above the question
    line, the lines the labelled question takes, the template lines below. *)
Lemma audit_prompt_lines (Q : string) :
  split_lines (audit_head ++ Q ++ audit_tail) =
    (removelast (split_lines audit_head) ++
     split_lines (question_label ++ Q ++ "  ") ++
     tl (split_lines audit_tail))%list.
Proof.
  assert (removelast (split_lines audit_head) =
          split_lines (substring 0 479 audit_head)) as ->
    by (vm_compute; reflexivity).
  assert (tl (split_lines audit_tail) =
          split_lines (substring 3 14486 audit_tail)) as ->
    by (vm_compute; reflexivity).
  apply field_lines; vm_compute; reflexivity.
Qed.

Lemma prefix_append (a b : string) : prefix a (a ++ b) = true.
Proof. apply prefix_correct, substring_take. Qed.

(** ** Reading the input back *)

Lemma splice_read_back (head tail Q : string) (n k : nat) :
  String.length head = n ->
  n + String.length tail = k ->
  String.length (head ++ Q ++ tail) = k + String.length Q /\
  substring n (String.length (head ++ Q ++ tail) - k) (head ++ Q ++ tail) = Q.
Proof.
  intros Hn Hk.
  destruct (splice_regions head tail Q) as (Hlen & _ & Hmid & _).
  cbv zeta in Hlen, Hmid. rewrite Hn in Hlen, Hmid.
  split; [lia|].
  replace (String.length (head ++ Q ++ tail) - k) with (String.length Q) by lia.
  exact Hmid.
Qed.

(** X1. An audit prompt is 15013 bytes longer than its question, and the
    question is read back from the document alone: it is the text at offset
    524 that leaves 14489 bytes after it.  So two questions never give the
    same prompt. *)
Theorem question_format_read_back :
  forall (w : world) (Q : string),
    let doc := document (question_format Q w) in
    String.length doc = 15013 + String.length Q /\
    substring 524 (String.length doc - 15013) doc = Q.
Proof.
  intros w Q doc. subst doc.
  change (document (question_format Q w)) with (audit_head ++ Q ++ audit_tail).
  apply splice_read_back; vm_compute; reflexivity.
Qed.

(** X2. A validation prompt is 17041 bytes longer than its report, and the
    report is read back from the document alone, at offset 404. *)
Theorem validation_format_read_back :
  forall (w : world) (R : string),
    let doc := document (validation_format R w) in
    String.length doc = 17041 + String.length R /\
    substring 404 (String.length doc - 17041) doc = R.
Proof.
  intros w R doc. subst doc.
  change (document (validation_format R w))
    with (validation_head ++ R ++ validation_tail).
  apply splice_read_back; vm_compute; reflexivity.
Qed.

Ltac measure part :=
  let n := eval vm_compute in (String.length part) in
  replace (String.length part) with n by (vm_compute; reflexivity).

Lemma generator_length (P : string) :
  String.length (String.concat P generator_parts) = 12525 + 14 * String.length P.
Proof.
  unfold generator_parts. cbn [String.concat].
  rewrite !length_append.
  measure generator_part_0. measure generator_part_1. measure generator_part_2.
  measure generator_part_3. measure generator_part_4. measure generator_part_5.
  measure generator_part_6. measure generator_part_7. measure generator_part_8.
  measure generator_part_9. measure generator_part_10. measure generator_part_11.
  measure generator_part_12. measure generator_part_13. measure generator_part_14.
  replace 12525 with (3 * 4175) by (vm_compute; reflexivity).
  lia.
Qed.

(** X3. A question-generation prompt has 12525 bytes of template and
    fourteen copies of the path, and the path is read back from the document
    alone: its length is a fourteenth of what exceeds 12525 bytes, and it
    stands at offset 1287. *)
Theorem question_generator_read_back :
  forall (w : world) (P : string),
    let doc := document (question_generator P w) in
    String.length doc = 12525 + 14 * String.length P /\
    substring 1287 ((String.length doc - 12525) / 14) doc = P.
Proof.
  intros w P doc. subst doc.
  change (document (question_generator P w))
    with (String.concat P generator_parts).
  pose proof (generator_length P) as Hlen.
  split; [exact Hlen|].
  rewrite Hlen.
  replace (12525 + 14 * String.length P - 12525) with (String.length P * 14) by lia.
  rewrite Nat.div_mul by discriminate.
  unfold generator_parts. cbn [String.concat].
  replace 1287 with (String.length generator_part_0 + 0) by (vm_compute; reflexivity).
  rewrite substring_skip. apply substring_take.
Qed.

(** ** Line layout of the prompts *)

(** X4. Whatever the question, the lines of an audit prompt are the eight
    template lines above the question line, then the lines of the label, the
    question and two blanks, then 285 template lines, of which line 221 is
    the sentinel line: the prompt has 294 lines and one more for each line
    break in the question. *)
Theorem question_format_lines :
  forall (w : world) (Q : string),
    let above := removelast (split_lines audit_head) in
    let below := tl (split_lines audit_tail) in
    let lines := split_lines (document (question_format Q w)) in
    lines = (above ++ split_lines (question_label ++ Q ++ "  ") ++ below)%list /\
    List.length above = 8 /\
    List.length below = 285 /\
    nth_error below 221 = Some ("`" ++ no_finding_sentinel ++ "`  ") /\
    List.length lines = 294 + line_breaks Q.
Proof.
  intros w Q above below lines. subst above below lines.
  change (document (question_format Q w)) with (audit_head ++ Q ++ audit_tail).
  split; [apply audit_prompt_lines|].
  split; [vm_compute; reflexivity|].
  split; [vm_compute; reflexivity|].
  split; [vm_compute; reflexivity|].
  rewrite split_lines_length, !line_breaks_append.
  replace (line_breaks audit_head) with 8 by (vm_compute; reflexivity).
  replace (line_breaks audit_tail) with 285 by (vm_compute; reflexivity).
  lia.
Qed.

(** X5. For a question without line break the audit prompt has 294 lines;
    line 8 is the label, the question and two blanks, and it is the only line
    that starts with the label; line 230 is the sentinel line. *)
Theorem question_format_single_line :
  forall (w : world) (Q : string),
    single_line Q = true ->
    let lines := split_lines (document (question_format Q w)) in
    List.length lines = 294 /\
    nth_error lines 8 = Some (question_label ++ Q ++ "  ") /\
    filter (prefix question_label) lines = [question_label ++ Q ++ "  "] /\
    nth_error lines 230 = Some ("`" ++ no_finding_sentinel ++ "`  ").
Proof.
  intros w Q HQ lines. subst lines.
  change (document (question_format Q w)) with (audit_head ++ Q ++ audit_tail).
  assert (single_line (question_label ++ Q ++ "  ") = true) as Hline.
  { clear w. unfold question_label. cbn [append single_line].
    cbn [negb andb Ascii.eqb Bool.eqb newline ascii_of_nat ascii_of_pos
         Pos.of_succ_nat Pos.succ ascii_of_N N.of_nat].
    induction Q as [|c Q IH]; cbn [append single_line]; [reflexivity|].
    cbn [single_line] in HQ. apply andb_true_iff in HQ. destruct HQ as [Hc HQ].
    rewrite Hc. exact (IH HQ). }
  rewrite audit_prompt_lines, (split_lines_single _ Hline).
  set (above := removelast (split_lines audit_head)).
  set (below := tl (split_lines audit_tail)).
  assert (List.length above = 8) as Habove by (vm_compute; reflexivity).
  split; [|split; [|split]].
  - rewrite !length_app, Habove.
    replace (List.length below) with 285 by (vm_compute; reflexivity).
    reflexivity.
  - rewrite nth_error_app2 by lia. now rewrite Habove.
  - rewrite !filter_app.
    replace (filter (prefix question_label) above) with (@nil string)
      by (vm_compute; reflexivity).
    replace (filter (prefix question_label) below) with (@nil string)
      by (vm_compute; reflexivity).
    cbn [filter app]. now rewrite prefix_append.
  - rewrite nth_error_app2 by lia. rewrite Habove.
    change (230 - 8) with (S 221). cbn [app nth_error].
    vm_compute. reflexivity.
Qed.

Lemma question_format_single_line_witness :
  nth_error (split_lines (document
               (question_format "Is the borrow limit enforced?"
                  (directory_with Absent)))) 8 =
    Some (question_label ++ "Is the borrow limit enforced?" ++ "  ").
Proof.
  apply (question_format_single_line (directory_with Absent)
           "Is the borrow limit enforced?").
  reflexivity.
Defined.

(** The lines of a template with one field that stands on lines of its
    own. *)
Lemma block_lines (head tail above below R : string) :
  head = above ++ String newline "" ->
  tail = String newline below ->
  split_lines (head ++ R ++ tail) =
    (split_lines above ++ split_lines R ++ split_lines below)%list.
Proof.
  intros -> ->.
  rewrite append_assoc. cbn [append].
  rewrite split_lines_break. f_equal.
  apply split_lines_break.
Qed.

(** The lines of a validation prompt: the report starts a line of its own
    and the template goes on on the next line after it. *)
Lemma validation_prompt_lines (R : string) :
  split_lines (validation_head ++ R ++ validation_tail) =
    (removelast (split_lines validation_head) ++
     split_lines R ++
     tl (split_lines validation_tail))%list.
Proof.
  assert (removelast (split_lines validation_head) =
          split_lines (substring 0 403 validation_head)) as ->
    by (vm_compute; reflexivity).
  assert (tl (split_lines validation_tail) =
          split_lines (substring 1 16636 validation_tail)) as ->
    by (vm_compute; reflexivity).
  apply block_lines; vm_compute; reflexivity.
Qed.

(** X6. Whatever the report, the lines of a validation prompt are six
    template lines, the last of them the heading of the claim, then the lines
    of the report unchanged, then 328 template lines that begin with an empty
    line and hold the sentinel instruction: the prompt has 335 lines and one
    more for each line break in the report. *)
Theorem validation_format_lines :
  forall (w : world) (R : string),
    let above := removelast (split_lines validation_head) in
    let below := tl (split_lines validation_tail) in
    let lines := split_lines (document (validation_format R w)) in
    lines = (above ++ split_lines R ++ below)%list /\
    List.length above = 6 /\
    nth_error above 5 = Some "**SECURITY CLAIM TO VALIDATE:**" /\
    skipn 6 lines = (split_lines R ++ below)%list /\
    List.length below = 328 /\
    nth_error below 0 = Some "" /\
    nth_error below 324 =
      Some ("- `" ++ no_finding_sentinel ++ "` (if **any** check fails)  very important ") /\
    List.length lines = 335 + line_breaks R.
Proof.
  intros w R. cbv zeta.
  change (document (validation_format R w))
    with (validation_head ++ R ++ validation_tail).
  rewrite validation_prompt_lines.
  set (above := removelast (split_lines validation_head)).
  set (below := tl (split_lines validation_tail)).
  assert (List.length above = 6) as Habove by (vm_compute; reflexivity).
  assert (List.length below = 328) as Hbelow by (vm_compute; reflexivity).
  split; [reflexivity|].
  split; [exact Habove|].
  split; [vm_compute; reflexivity|].
  split.
  { rewrite skipn_app, Habove, Nat.sub_diag, skipn_all2 by lia. reflexivity. }
  split; [exact Hbelow|].
  split; [vm_compute; reflexivity|].
  split; [vm_compute; reflexivity|].
  rewrite !length_app, Habove, Hbelow, split_lines_length. lia.
Qed.

(** ** The registry and the question-generation prompt *)

Lemma generator_file_tags (P : string) :
  bracket_free P = true ->
  file_tags (String.concat P generator_parts) =
    [P; P; example_path; example_path; example_path].
Proof.
  intros HP. unfold file_tags, generator_parts. cbn [String.concat].
  rewrite !scan_append.
  repeat scan_next HP.
  reflexivity.
Qed.

(** X9. Every path of the registry is free of brackets and line breaks, and
    the prompt generated for it carries that path in its two template file
    tags, before the three tags of the example block. *)
Theorem registry_prompts_file_tags :
  forall w : world,
    Forall (fun P =>
              bracket_free P = true /\ single_line P = true /\
              file_tags (document (question_generator P w)) =
                [P; P; example_path; example_path; example_path])
           questions_generator.
Proof.
  intros w. apply Forall_forall. intros P HP.
  assert (forallb (fun p => bracket_free p && single_line p) questions_generator = true)
    as Hall by (vm_compute; reflexivity).
  rewrite forallb_forall in Hall. specialize (Hall P HP).
  apply andb_true_iff in Hall. destruct Hall as [Hfree Hline].
  split; [exact Hfree|]. split; [exact Hline|].
  change (document (question_generator P w)) with (String.concat P generator_parts).
  now apply generator_file_tags.
Qed.

(** X10. For a path without brackets, all file tags of the generated prompt
    read that path exactly when the path is the one of the example block,
    [contracts/rujira-ghost-credit/src/contract.rs]. *)
Theorem question_generator_tags_agree_iff :
  forall (w : world) (P : string),
    bracket_free P = true ->
    (Forall (fun tag => tag = P) (file_tags (document (question_generator P w)))
     <-> P = example_path).
Proof.
  intros w P HP.
  change (document (question_generator P w)) with (String.concat P generator_parts).
  rewrite (generator_file_tags P HP). split.
  - intros Hall.
    inversion Hall as [|? ? _ Hrest]; subst.
    inversion Hrest as [|? ? _ Hrest']; subst.
    inversion Hrest' as [|? ? Hex _]; subst.
    now symmetry.
  - intros ->. repeat constructor.
Qed.

Lemma question_generator_tags_agree_iff_witness :
  Forall (fun tag => tag = example_path)
    (file_tags (document (question_generator example_path (directory_with Absent)))) /\
  ~ Forall (fun tag => tag = "contracts/rujira-account/src/lib.rs")
      (file_tags (document
         (question_generator "contracts/rujira-account/src/lib.rs"
            (directory_with Absent)))).
Proof.
  split.
  - apply (question_generator_tags_agree_iff (directory_with Absent) example_path);
      reflexivity.
  - intros Hall.
    apply (question_generator_tags_agree_iff (directory_with Absent)
             "contracts/rujira-account/src/lib.rs") in Hall;
      [discriminate | reflexivity].
Defined.
